(** * github-stats-viewer: a shallow embedding of [src/index.ts]

    The program is a command-line tool: it fetches a GitHub profile and the
    five most recently updated repositories of a user, prints the profile as
    labelled lines and the repositories as a table.

    The embedding keeps the shape of the TypeScript source:
    - a string is a [string]; one character stands for one UTF-16 code
      unit, which is what [length] and [substring] count in JavaScript;
    - a field that the GitHub API may leave out ([null]) is an
      [option string]; the source tests such fields for truthiness, so
      [None] and [Some ""] are the two falsy values;
    - the effects (console output, HTTP requests, the spinner, the process
      exit) are recorded in a chronological trace by a small writer monad
      with exceptions, [Prog];
    - what the host provides (the remote service behind [axios.get], the
      locale's date format, the figlet banner) is a record, [Host]. *)

From Stdlib Require Import String Ascii List ZArith NArith Lia Bool DecimalString.
Import ListNotations.
Open Scope string_scope.

(** ** JavaScript values used by the source *)

Module Js.

(** [s.substring(start, end_)] for non-negative integer arguments: both
    indices are clamped to the length, and swapped if out of order. *)
Definition substring (s : string) (start end_ : nat) : string :=
  let len := String.length s in
  let a := Nat.min start len in
  let b := Nat.min end_ len in
  let from := Nat.min a b in
  let to := Nat.max a b in
  String.substring from (to - from) s.

(** Truthiness of a possibly missing string: [null] and [''] are falsy. *)
Definition truthy (o : option string) : bool :=
  match o with
  | Some (String _ _) => true
  | Some EmptyString => false
  | None => false
  end.

(** [o || d] where the result is used as a string. *)
Definition or_else (o : option string) (d : string) : string :=
  match o with
  | Some (String c s) => String c s
  | Some EmptyString => d
  | None => d
  end.

(** A number interpolated in a template literal; the counts of the
    GitHub API are non-negative integers, printed in decimal. *)
Definition show_number (n : N) : string :=
  NilEmpty.string_of_uint (N.to_uint n).

(** A thrown value, as far as the source inspects it:
    [axios.isAxiosError(error)], [error.response?.status] and
    [(error as Error).message]. *)
Record Thrown : Type := mkThrown
  { isAxiosError : bool;
    response_status : option Z;
    message : string }.

(** [new Error(msg)] *)
Definition new_Error (msg : string) : Thrown :=
  {| isAxiosError := false; response_status := None; message := msg |}.

(** [s.includes(sub)], as a proposition. *)
Definition includes (s sub : string) : Prop :=
  exists pre post, s = pre ++ sub ++ post.

End Js.

(** ** Data model (the two interfaces of the source) *)

Record GitHubUser : Type := mkUser
  { login : string;
    name : option string;
    bio : option string;
    avatar_url : string;
    public_repos : N;
    followers : N;
    following : N;
    created_at : string;
    html_url : string }.

(** [name] and [html_url] of a repository are [repo_name] and
    [repo_html_url]: the profile has fields of the same names. *)
Record GitHubRepo : Type := mkRepo
  { repo_name : string;
    description : option string;
    repo_html_url : string;
    stargazers_count : N;
    forks_count : N;
    language : option string }.

(** ** Terminal output *)

(** The chalk styles the source uses. A styled string keeps its text; the
    escape codes chalk wraps around it depend on the terminal. *)
Inductive chalk_style : Type :=
  | bold | blue | green | yellow | cyan | white_bold.

Inductive text : Type :=
  | Plain (s : string)
  | Chalk (st : chalk_style) (s : string).

Definition text_content (t : text) : string :=
  match t with
  | Plain s => s
  | Chalk _ s => s
  end.

(** A cell handed to the table: a string or a number. *)
Inductive cell : Type :=
  | TextCell (t : text)
  | NumCell (n : N).

(** The [cli-table3] object: its options and the rows pushed so far. The
    layout computed by [table.toString()] belongs to that library; the
    model keeps the table itself. *)
Record Table : Type := mkTable
  { head : list text;
    colWidths : list nat;
    rows : list (list cell) }.

Definition new_Table (hd : list text) (widths : list nat) : Table :=
  {| head := hd; colWidths := widths; rows := [] |}.

Definition table_push (t : Table) (row : list cell) : Table :=
  {| head := head t; colWidths := colWidths t; rows := (rows t ++ [row])%list |}.

Inductive printed : Type :=
  | Line (t : text)
  | TableString (t : Table).

(** ** Effects *)

Inductive event : Type :=
  | ConsoleLog (p : printed)
  | HttpGet (url : string)
  | SpinnerStart (msg : string)
  | SpinnerSucceed (msg : string)
  | SpinnerFail (msg : string).

Inductive outcome (A : Type) : Type :=
  | Returned (a : A)
  | Threw (e : Js.Thrown)
  | Exited (code : Z).

Arguments Returned {A} a.
Arguments Threw {A} e.
Arguments Exited {A} code.

(** A computation: the events it performed, in order, and how it ended.
    [Exited] is [process.exit]: nothing runs after it and no [catch]
    sees it. *)
Definition Prog (A : Type) : Type := list event * outcome A.

Definition ret {A} (a : A) : Prog A := ([], Returned a).

Definition bind {A B} (p : Prog A) (k : A -> Prog B) : Prog B :=
  match p with
  | (t, Returned a) => let (t', o) := k a in ((t ++ t')%list, o)
  | (t, Threw e) => (t, Threw e)
  | (t, Exited c) => (t, Exited c)
  end.

Definition throw {A} (e : Js.Thrown) : Prog A := ([], Threw e).

Definition try_catch {A} (body : Prog A) (handler : Js.Thrown -> Prog A) : Prog A :=
  match body with
  | (t, Threw e) => let (t', o) := handler e in ((t ++ t')%list, o)
  | (t, Returned a) => (t, Returned a)
  | (t, Exited c) => (t, Exited c)
  end.

Definition emit (ev : event) : Prog unit := ([ev], Returned tt).

Definition process_exit {A} (code : Z) : Prog A := ([], Exited code).

Declare Scope prog_scope.
Delimit Scope prog_scope with prog.
Notation "x <- c1 ;; c2" := (bind c1 (fun x => c2))
  (at level 61, c1 at next level, right associativity) : prog_scope.
Notation "c1 ;; c2" := (bind c1 (fun _ => c2))
  (at level 61, right associativity) : prog_scope.
Open Scope prog_scope.

Definition console_log (t : text) : Prog unit := emit (ConsoleLog (Line t)).

Definition trace {A} (p : Prog A) : list event := fst p.
Definition result {A} (p : Prog A) : outcome A := snd p.

(** ** The host *)

Record AxiosResponse (T : Type) : Type := mkResponse { data : T }.
Arguments mkResponse {T} data.
Arguments data {T} _.

(** How the promise of [axios.get] settles. *)
Inductive settled (T : Type) : Type :=
  | Resolved (r : AxiosResponse T)
  | Rejected (e : Js.Thrown).

Arguments Resolved {T} r.
Arguments Rejected {T} e.

(** The remote service answers a URL; the payload has the type the source
    declares for it ([Promise<GitHubUser>], [Promise<GitHubRepo[]>]).
    [toLocaleDateString s] is [new Date(s).toLocaleDateString()] in the
    locale and time zone of the host, [figlet_textSync s] the banner drawn
    by [figlet.textSync(s, { horizontalLayout: 'full' })]. *)
Record Host : Type := mkHost
  { get_user : string -> settled GitHubUser;
    get_repos : string -> settled (list GitHubRepo);
    toLocaleDateString : string -> string;
    figlet_textSync : string -> string }.

(** [await axios.get(url)] *)
Definition axios_get {T} (remote : string -> settled T) (url : string)
  : Prog (AxiosResponse T) :=
  emit (HttpGet url) ;;
  match remote url with
  | Resolved r => ret r
  | Rejected e => throw e
  end.

(** ** Fetcher *)

Definition user_url (username : string) : string :=
  "https://api.github.com/users/" ++ username.

Definition repos_url (username : string) : string :=
  "https://api.github.com/users/" ++ username ++ "/repos?sort=updated&per_page=5".

Definition not_found_message (username : string) : string :=
  "User '" ++ username ++ "' not found on GitHub".

Definition user_failure_message : string :=
  "Failed to fetch user data from GitHub API".

Definition repos_failure_message : string :=
  "Failed to fetch repository data from GitHub API".

Definition status_is (o : option Z) (code : Z) : bool :=
  match o with
  | Some s => Z.eqb s code
  | None => false
  end.

Definition fetchUserData (h : Host) (username : string) : Prog GitHubUser :=
  try_catch
    (response <- axios_get (get_user h) (user_url username) ;;
     ret (data response))
    (fun error =>
       if Js.isAxiosError error && status_is (Js.response_status error) 404
       then throw (Js.new_Error (not_found_message username))
       else throw (Js.new_Error user_failure_message)).

Definition fetchUserRepos (h : Host) (username : string) : Prog (list GitHubRepo) :=
  try_catch
    (response <- axios_get (get_repos h) (repos_url username) ;;
     ret (data response))
    (fun _ => throw (Js.new_Error repos_failure_message)).

(** ** Renderer *)

Definition displayUserInfo (h : Host) (userData : GitHubUser) : Prog unit :=
  console_log (Chalk bold (String "010" "User Information:")) ;;
  console_log (Chalk blue ("Username: " ++ login userData)) ;;
  (if Js.truthy (name userData)
   then console_log (Chalk blue ("Name: " ++ Js.or_else (name userData) ""))
   else ret tt) ;;
  (if Js.truthy (bio userData)
   then console_log (Chalk blue ("Bio: " ++ Js.or_else (bio userData) ""))
   else ret tt) ;;
  console_log (Chalk blue ("Profile URL: " ++ html_url userData)) ;;
  console_log (Chalk blue ("Account Created: " ++ toLocaleDateString h (created_at userData))) ;;
  console_log (Chalk bold (String "010" "Stats:")) ;;
  console_log (Chalk green ("Public Repositories: " ++ Js.show_number (public_repos userData))) ;;
  console_log (Chalk green ("Followers: " ++ Js.show_number (followers userData))) ;;
  console_log (Chalk green ("Following: " ++ Js.show_number (following userData))).

(** The description cell:
    [d ? d.substring(0, 27) + (d.length > 27 ? '...' : '') : '']. *)
Definition description_cell (d : option string) : string :=
  match d with
  | Some (String c s) =>
      let d := String c s in
      Js.substring d 0 27 ++ (if Nat.ltb 27 (String.length d) then "..." else "")
  | Some EmptyString => ""
  | None => ""
  end.

(** The language cell: [repo.language || 'N/A']. *)
Definition language_cell (l : option string) : string :=
  Js.or_else l "N/A".

Definition repo_row (repo : GitHubRepo) : list cell :=
  [ TextCell (Chalk cyan (repo_name repo));
    TextCell (Plain (description_cell (description repo)));
    NumCell (stargazers_count repo);
    NumCell (forks_count repo);
    TextCell (Plain (language_cell (language repo))) ].

Definition table_head : list text :=
  [ Chalk white_bold "Repository";
    Chalk white_bold "Description";
    Chalk white_bold "Stars";
    Chalk white_bold "Forks";
    Chalk white_bold "Language" ].

(** [repos.forEach(repo => table.push([...]))] *)
Definition push_repos (table : Table) (repos : list GitHubRepo) : Table :=
  fold_left (fun t repo => table_push t (repo_row repo)) repos table.

Definition displayRepoInfo (repos : list GitHubRepo) : Prog unit :=
  if Nat.eqb (List.length repos) 0
  then console_log (Chalk yellow (String "010" "No repositories found."))
  else
    console_log (Chalk bold (String "010" "Top 5 Repositories:")) ;;
    let table := new_Table table_head [20; 30; 10; 10; 15]%nat in
    let table := push_repos table repos in
    emit (ConsoleLog (TableString table)).

(** ** Command driver *)

(** The action commander runs with the positional argument [username]. *)
Definition action (h : Host) (username : string) : Prog unit :=
  emit (SpinnerStart "Fetching GitHub data...") ;;
  try_catch
    (userData <- fetchUserData h username ;;
     userRepos <- fetchUserRepos h username ;;
     emit (SpinnerSucceed "Data fetched successfully!") ;;
     displayUserInfo h userData ;;
     displayRepoInfo userRepos)
    (fun error =>
       emit (SpinnerFail (Js.message error)) ;;
       process_exit 1).

(** [run()], for an invocation with exactly one positional argument. *)
Definition run (h : Host) (username : string) : Prog unit :=
  console_log (Chalk yellow (figlet_textSync h "GitHub Stats")) ;;
  action h username.

(** The exit status of the process: [process.exit(code)] gives [code], a
    run that ends by itself gives 0, an uncaught exception gives 1. *)
Definition exit_code (p : Prog unit) : Z :=
  match result p with
  | Returned _ => 0
  | Exited c => c
  | Threw _ => 1
  end.

(** The first event of every run: the banner. *)
Definition banner (h : Host) : event :=
  ConsoleLog (Line (Chalk yellow (figlet_textSync h "GitHub Stats"))).

(** What a trace shows to each observer. *)

Fixpoint http_requests (t : list event) : list string :=
  match t with
  | [] => []
  | HttpGet url :: t' => url :: http_requests t'
  | _ :: t' => http_requests t'
  end.

Fixpoint console_output (t : list event) : list printed :=
  match t with
  | [] => []
  | ConsoleLog p :: t' => p :: console_output t'
  | _ :: t' => console_output t'
  end.

(** ** The error kinds of the specification

    The source has one class of error, [Error], and tells the cases apart
    by the message only. The two kinds of the specification are read off
    the messages the fetchers build. *)

Definition NotFound (username : string) (e : Js.Thrown) : Prop :=
  e = Js.new_Error (not_found_message username).

Definition FetchFailure (e : Js.Thrown) : Prop :=
  e = Js.new_Error user_failure_message \/ e = Js.new_Error repos_failure_message.

(** The remote service reports that the identifier does not exist: the
    request is rejected by axios with a response of status 404. *)
Definition reports_not_found {T} (s : settled T) : Prop :=
  exists e, s = Rejected e /\ Js.isAxiosError e = true /\ Js.response_status e = Some 404%Z.

(** ** Views used by the statements *)

(** The line [displayUserInfo] prints for a field it tests for truthiness. *)
Definition optional_line (label : string) (o : option string) : list event :=
  if Js.truthy o
  then [ConsoleLog (Line (Chalk blue (label ++ Js.or_else o "")))]
  else [].

Definition set_name (u : GitHubUser) (o : option string) : GitHubUser :=
  {| login := login u; name := o; bio := bio u; avatar_url := avatar_url u;
     public_repos := public_repos u; followers := followers u;
     following := following u; created_at := created_at u;
     html_url := html_url u |}.

Definition set_bio (u : GitHubUser) (o : option string) : GitHubUser :=
  {| login := login u; name := name u; bio := o; avatar_url := avatar_url u;
     public_repos := public_repos u; followers := followers u;
     following := following u; created_at := created_at u;
     html_url := html_url u |}.

Definition set_language (r : GitHubRepo) (o : option string) : GitHubRepo :=
  {| repo_name := repo_name r; description := description r;
     repo_html_url := repo_html_url r; stargazers_count := stargazers_count r;
     forks_count := forks_count r; language := o |}.

(** The spinner's side of a trace, and the events that write to the
    console. *)
Fixpoint spinner_events (t : list event) : list event :=
  match t with
  | [] => []
  | SpinnerStart m :: t' => SpinnerStart m :: spinner_events t'
  | SpinnerSucceed m :: t' => SpinnerSucceed m :: spinner_events t'
  | SpinnerFail m :: t' => SpinnerFail m :: spinner_events t'
  | _ :: t' => spinner_events t'
  end.

Definition is_console_log (ev : event) : bool :=
  match ev with
  | ConsoleLog _ => true
  | _ => false
  end.

(** The table [displayRepoInfo] builds for a list of repositories. *)
Definition repo_table (repos : list GitHubRepo) : Table :=
  push_repos (new_Table table_head [20; 30; 10; 10; 15]%nat) repos.

(** ** Sample inputs *)

Module Sample.

Definition octocat : GitHubUser :=
  {| login := "octocat";
     name := Some "The Octocat";
     bio := None;
     avatar_url := "https://avatars.githubusercontent.com/u/583231";
     public_repos := 8;
     followers := 9999;
     following := 9;
     created_at := "2011-01-25T18:44:36Z";
     html_url := "https://github.com/octocat" |}.

Definition repo (n : string) (d l : option string) : GitHubRepo :=
  {| repo_name := n;
     description := d;
     repo_html_url := "https://github.com/octocat/" ++ n;
     stargazers_count := 12;
     forks_count := 3;
     language := l |}.

Definition spoon_knife : GitHubRepo :=
  repo "Spoon-Knife" (Some "This repo is for demonstration purposes only.")
       (Some "HTML").

Definition dotfiles : GitHubRepo := repo "dotfiles" (Some "") (Some "").

Definition seven_repos : list GitHubRepo :=
  [ spoon_knife; dotfiles;
    repo "hello-world" None None;
    repo "git-consortium" (Some "exactly twenty-seven chars.") (Some "Ruby");
    repo "boysenberry" (Some "short") (Some "C");
    repo "linguist" None (Some "Ruby");
    repo "test-repo1" None None ].

(** A locale that prints the calendar date of an ISO-8601 timestamp as it
    stands. *)
Definition iso_date (s : string) : string := String.substring 0 10 s.

(** A service that knows [octocat] only, and honours [per_page=5]. *)
Definition service : Host :=
  {| get_user := fun url =>
       if String.eqb url (user_url "octocat")
       then Resolved (mkResponse octocat)
       else Rejected (Js.mkThrown true (Some 404%Z) "Request failed with status code 404");
     get_repos := fun url =>
       if String.eqb url (repos_url "octocat")
       then Resolved (mkResponse (firstn 5 seven_repos))
       else Rejected (Js.mkThrown true (Some 404%Z) "Request failed with status code 404");
     toLocaleDateString := iso_date;
     figlet_textSync := fun s => s |}.

(** No network: every request is rejected without a response. *)
Definition network_error : Js.Thrown :=
  Js.mkThrown true None "Network Error".

Definition offline : Host :=
  {| get_user := fun _ => Rejected network_error;
     get_repos := fun _ => Rejected network_error;
     toLocaleDateString := iso_date;
     figlet_textSync := fun s => s |}.

(** The profile arrives, the repository request gets a 404. *)
Definition profile_only : Host :=
  {| get_user := get_user service;
     get_repos := fun _ =>
       Rejected (Js.mkThrown true (Some 404%Z) "Request failed with status code 404");
     toLocaleDateString := iso_date;
     figlet_textSync := fun s => s |}.

(** An account without any repository. *)
Definition newcomer : GitHubUser :=
  {| login := "newcomer";
     name := Some "";
     bio := Some "Just arrived.";
     avatar_url := "https://avatars.githubusercontent.com/u/1";
     public_repos := 0;
     followers := 0;
     following := 0;
     created_at := "2024-02-29T08:00:00Z";
     html_url := "https://github.com/newcomer" |}.

Definition quiet_service : Host :=
  {| get_user := fun _ => Resolved (mkResponse newcomer);
     get_repos := fun _ => Resolved (mkResponse []);
     toLocaleDateString := iso_date;
     figlet_textSync := fun s => s |}.

(** A service that ignores [per_page] and sends all seven repositories. *)
Definition generous_service : Host :=
  {| get_user := get_user service;
     get_repos := fun _ => Resolved (mkResponse seven_repos);
     toLocaleDateString := iso_date;
     figlet_textSync := fun s => s |}.

End Sample.

(** * Properties *)

(** ** The [Prog] monad *)

Lemma trace_bind {A B} (p : Prog A) (k : A -> Prog B) :
  trace (bind p k) =
  (trace p ++ match result p with
              | Returned a => trace (k a)
              | _ => []
              end)%list.
Proof.
  destruct p as [t [a | e | c]]; cbn.
  - destruct (k a); reflexivity.
  - now rewrite app_nil_r.
  - now rewrite app_nil_r.
Qed.

Lemma result_bind {A B} (p : Prog A) (k : A -> Prog B) :
  result (bind p k) =
  match result p with
  | Returned a => result (k a)
  | Threw e => Threw e
  | Exited c => Exited c
  end.
Proof.
  destruct p as [t [a | e | c]]; cbn; try reflexivity.
  destruct (k a); reflexivity.
Qed.

Lemma http_requests_app (t1 t2 : list event) :
  http_requests (t1 ++ t2) = (http_requests t1 ++ http_requests t2)%list.
Proof.
  induction t1 as [| ev t1 IH]; cbn; [reflexivity |].
  destruct ev; cbn; now rewrite IH.
Qed.

Lemma console_output_app (t1 t2 : list event) :
  console_output (t1 ++ t2) = (console_output t1 ++ console_output t2)%list.
Proof.
  induction t1 as [| ev t1 IH]; cbn; [reflexivity |].
  destruct ev; cbn; now rewrite IH.
Qed.

Lemma http_requests_In (t : list event) (url : string) :
  In url (http_requests t) <-> In (HttpGet url) t.
Proof.
  induction t as [| ev t IH]; cbn; [tauto |].
  destruct ev; cbn; rewrite IH; intuition (try discriminate; try congruence).
Qed.

(** ** Strings *)

Lemma substring_all (s : string) (n : nat) :
  String.length s <= n -> String.substring 0 n s = s.
Proof.
  revert n; induction s as [| c s IH]; intros [| n] Hlen; cbn in *;
    try reflexivity; try lia.
  f_equal; apply IH; lia.
Qed.

Lemma substring_split (s : string) (n : nat) :
  n <= String.length s ->
  exists rest, s = String.substring 0 n s ++ rest /\
               String.length (String.substring 0 n s) = n.
Proof.
  revert n; induction s as [| c s IH]; intros [| n] Hlen; cbn in *; try lia.
  - exists ""; split; reflexivity.
  - exists (String c s); split; reflexivity.
  - destruct (IH n) as [rest [Heq Hl]]; [lia |].
    exists rest; split; [now rewrite <- Heq | now rewrite Hl].
Qed.

Lemma js_substring_from_0 (s : string) (n : nat) :
  Js.substring s 0 n = String.substring 0 (Nat.min n (String.length s)) s.
Proof.
  unfold Js.substring; cbn.
  now rewrite Nat.sub_0_r.
Qed.

Lemma js_substring_short (s : string) (n : nat) :
  String.length s <= n -> Js.substring s 0 n = s.
Proof.
  intros Hlen; rewrite js_substring_from_0.
  rewrite Nat.min_r by exact Hlen.
  now apply substring_all.
Qed.

Lemma js_substring_long (s : string) (n : nat) :
  n <= String.length s ->
  exists rest, s = Js.substring s 0 n ++ rest /\
               String.length (Js.substring s 0 n) = n.
Proof.
  intros Hlen; rewrite js_substring_from_0.
  rewrite Nat.min_l by exact Hlen.
  now apply substring_split.
Qed.

Lemma append_empty_r (s : string) : s ++ "" = s.
Proof. induction s as [| c s IH]; cbn; [reflexivity | now rewrite IH]. Qed.

Lemma append_assoc (a b c : string) : (a ++ b) ++ c = a ++ b ++ c.
Proof. induction a as [| x a IH]; cbn; [reflexivity | now rewrite IH]. Qed.

Lemma length_append (a b : string) :
  String.length (a ++ b) = String.length a + String.length b.
Proof. induction a as [| x a IH]; cbn; [reflexivity | now rewrite IH]. Qed.

(** ** C1: the description cell *)

(** C1. For a repository whose description [d] is longer than 27
    characters, the description cell of its row is the first 27 characters
    of [d] followed by ["..."]; when [d] has 27 characters or fewer the cell
    is [d] itself; when [d] is empty the cell is the empty string. *)
Theorem description_cell_truncates (repo : GitHubRepo) (d : string) :
  description repo = Some d ->
  exists c,
    nth_error (repo_row repo) 1 = Some (TextCell (Plain c)) /\
    (27 < String.length d ->
       exists first rest,
         d = first ++ rest /\ String.length first = 27 /\ c = first ++ "...") /\
    (String.length d <= 27 -> c = d) /\
    (d = "" -> c = "").
Proof.
  intros Hd. exists (description_cell (description repo)).
  split; [reflexivity |]. rewrite Hd.
  destruct d as [| ch d']; [cbn; repeat split; intros; try reflexivity; cbn in *; lia |].
  unfold description_cell.
  set (s := String ch d').
  repeat split.
  - intros Hlong.
    destruct (js_substring_long s 27) as [rest [Heq Hlen]]; [lia |].
    exists (Js.substring s 0 27), rest.
    repeat split; try assumption.
    apply Nat.ltb_lt in Hlong. now rewrite Hlong.
  - intros Hshort.
    rewrite js_substring_short by exact Hshort.
    assert (Hnot : Nat.ltb 27 (String.length s) = false) by (apply Nat.ltb_ge; exact Hshort).
    rewrite Hnot. apply append_empty_r.
  - discriminate.
Qed.

Lemma description_cell_absent : description_cell None = "".
Proof. reflexivity. Qed.

(** ** The fetchers, case by case *)

Lemma fetchUserData_resolved (h : Host) (username : string) (r : AxiosResponse GitHubUser) :
  get_user h (user_url username) = Resolved r ->
  fetchUserData h username = ([HttpGet (user_url username)], Returned (data r)).
Proof. intros H; unfold fetchUserData, axios_get; rewrite H; reflexivity. Qed.

Lemma fetchUserData_rejected (h : Host) (username : string) (e : Js.Thrown) :
  get_user h (user_url username) = Rejected e ->
  fetchUserData h username =
  ([HttpGet (user_url username)],
   Threw (Js.new_Error
            (if Js.isAxiosError e && status_is (Js.response_status e) 404
             then not_found_message username
             else user_failure_message))).
Proof.
  intros H; unfold fetchUserData, axios_get; rewrite H; cbn.
  destruct (Js.isAxiosError e && status_is (Js.response_status e) 404); reflexivity.
Qed.

Lemma fetchUserRepos_resolved (h : Host) (username : string) (r : AxiosResponse (list GitHubRepo)) :
  get_repos h (repos_url username) = Resolved r ->
  fetchUserRepos h username = ([HttpGet (repos_url username)], Returned (data r)).
Proof. intros H; unfold fetchUserRepos, axios_get; rewrite H; reflexivity. Qed.

Lemma fetchUserRepos_rejected (h : Host) (username : string) (e : Js.Thrown) :
  get_repos h (repos_url username) = Rejected e ->
  fetchUserRepos h username =
  ([HttpGet (repos_url username)], Threw (Js.new_Error repos_failure_message)).
Proof. intros H; unfold fetchUserRepos, axios_get; rewrite H; reflexivity. Qed.

Lemma status_is_404 (o : option Z) : status_is o 404 = true <-> o = Some 404%Z.
Proof.
  destruct o as [s |]; cbn; [| split; discriminate].
  rewrite Z.eqb_eq; split; congruence.
Qed.

Lemma not_found_test (e : Js.Thrown) :
  Js.isAxiosError e && status_is (Js.response_status e) 404 = true <->
  Js.isAxiosError e = true /\ Js.response_status e = Some 404%Z.
Proof. now rewrite andb_true_iff, status_is_404. Qed.

(** The two kinds never meet: the messages differ in their first letter. *)
Lemma NotFound_not_FetchFailure (username : string) (e : Js.Thrown) :
  NotFound username e -> ~ FetchFailure e.
Proof.
  unfold NotFound, FetchFailure; intros -> [H | H]; discriminate H.
Qed.

Lemma not_found_message_includes_username (username : string) :
  Js.includes (not_found_message username) username.
Proof. now exists "User '", "' not found on GitHub". Qed.

Lemma not_found_message_says_not_found (username : string) :
  Js.includes (not_found_message username) "not found".
Proof.
  exists ("User '" ++ username ++ "' "), " on GitHub".
  unfold not_found_message.
  change ("' not found on GitHub") with ("' " ++ "not found" ++ " on GitHub").
  now rewrite !append_assoc.
Qed.

(** ** C2: the failures of the profile fetch *)

(** C2. [fetchUserData] fails with the NotFound kind exactly when the remote
    service answers the profile request with status 404; the message of that
    error contains the username and the words "not found"; when the request
    is rejected in any other way the error is the generic FetchFailure. *)
Theorem fetchUserData_failure_kinds (h : Host) (username : string) :
  ((exists e, result (fetchUserData h username) = Threw e /\ NotFound username e) <->
   reports_not_found (get_user h (user_url username))) /\
  (forall e, result (fetchUserData h username) = Threw e ->
             NotFound username e ->
             Js.includes (Js.message e) username /\
             Js.includes (Js.message e) "not found") /\
  (forall cause, get_user h (user_url username) = Rejected cause ->
                 ~ reports_not_found (get_user h (user_url username)) ->
                 result (fetchUserData h username) = Threw (Js.new_Error user_failure_message) /\
                 FetchFailure (Js.new_Error user_failure_message)) /\
  (forall e, result (fetchUserData h username) = Threw e ->
             NotFound username e \/ FetchFailure e).
Proof.
  destruct (get_user h (user_url username)) as [r | cause] eqn:Hget.
  - rewrite (fetchUserData_resolved h username r Hget); cbn.
    split; [| split; [| split]].
    + split.
      * intros [e [He _]]; discriminate He.
      * intros [e [He _]]; discriminate He.
    + intros e He; discriminate He.
    + intros cause Hc; discriminate Hc.
    + intros e He; discriminate He.
  - rewrite (fetchUserData_rejected h username cause Hget); cbn.
    destruct (Js.isAxiosError cause && status_is (Js.response_status cause) 404) eqn:Htest.
    + apply not_found_test in Htest.
      split; [| split; [| split]].
      * split; intros _.
        -- exists cause. tauto.
        -- eexists; split; reflexivity.
      * intros e He _. injection He as <-. split.
        -- apply not_found_message_includes_username.
        -- apply not_found_message_says_not_found.
      * intros cause' Hc Hno. exfalso. apply Hno.
        exists cause. tauto.
      * intros e He. injection He as <-. now left.
    + assert (Hno : ~ (Js.isAxiosError cause = true /\ Js.response_status cause = Some 404%Z)).
      { rewrite <- not_found_test, Htest. discriminate. }
      split; [| split; [| split]].
      * split.
        -- intros [e [He Hnf]]. injection He as <-. discriminate Hnf.
        -- intros [e [He Hs]]. injection He as <-. contradiction.
      * intros e He Hnf. injection He as <-. discriminate Hnf.
      * intros _ _ _. split; [reflexivity | now left].
      * intros e He. injection He as <-. right. now left.
Qed.

(** ** The renderers always return *)

Lemma displayUserInfo_returns (h : Host) (u : GitHubUser) :
  result (displayUserInfo h u) = Returned tt.
Proof.
  unfold displayUserInfo.
  destruct (Js.truthy (name u)), (Js.truthy (bio u)); reflexivity.
Qed.

Lemma push_repos_rows (repos : list GitHubRepo) (t : Table) :
  push_repos t repos =
  {| head := head t; colWidths := colWidths t;
     rows := (rows t ++ map repo_row repos)%list |}.
Proof.
  revert t; induction repos as [| repo repos IH]; intros t; cbn.
  - rewrite app_nil_r. now destruct t.
  - unfold push_repos in IH. rewrite IH. cbn.
    now rewrite <- app_assoc.
Qed.

Lemma displayRepoInfo_nonempty (repos : list GitHubRepo) :
  repos <> [] ->
  displayRepoInfo repos =
  ([ConsoleLog (Line (Chalk bold (String "010" "Top 5 Repositories:")));
    ConsoleLog (TableString {| head := table_head;
                               colWidths := [20; 30; 10; 10; 15]%nat;
                               rows := map repo_row repos |})],
   Returned tt).
Proof.
  intros Hne. destruct repos as [| repo repos]; [contradiction |].
  unfold displayRepoInfo. cbn [List.length Nat.eqb].
  rewrite push_repos_rows. reflexivity.
Qed.

Lemma displayRepoInfo_returns (repos : list GitHubRepo) :
  result (displayRepoInfo repos) = Returned tt.
Proof.
  destruct repos as [| repo repos]; [reflexivity |].
  now rewrite displayRepoInfo_nonempty.
Qed.

Lemma displayUserInfo_no_request (h : Host) (u : GitHubUser) :
  http_requests (trace (displayUserInfo h u)) = [].
Proof.
  unfold displayUserInfo.
  destruct (Js.truthy (name u)), (Js.truthy (bio u)); reflexivity.
Qed.

Lemma displayRepoInfo_no_request (repos : list GitHubRepo) :
  http_requests (trace (displayRepoInfo repos)) = [].
Proof.
  destruct repos as [| repo repos]; [reflexivity |].
  now rewrite displayRepoInfo_nonempty.
Qed.

(** ** The driver, case by case *)

Lemma run_profile_rejected (h : Host) (username : string) (e : Js.Thrown) :
  fetchUserData h username = ([HttpGet (user_url username)], Threw e) ->
  run h username =
  ([banner h; SpinnerStart "Fetching GitHub data...";
    HttpGet (user_url username); SpinnerFail (Js.message e)],
   Exited 1).
Proof. intros H; unfold run, action; rewrite H; reflexivity. Qed.

Lemma run_repos_rejected (h : Host) (username : string) (u : GitHubUser) (e : Js.Thrown) :
  fetchUserData h username = ([HttpGet (user_url username)], Returned u) ->
  fetchUserRepos h username = ([HttpGet (repos_url username)], Threw e) ->
  run h username =
  ([banner h; SpinnerStart "Fetching GitHub data...";
    HttpGet (user_url username); HttpGet (repos_url username);
    SpinnerFail (Js.message e)],
   Exited 1).
Proof. intros H1 H2; unfold run, action; rewrite H1, H2; reflexivity. Qed.

Lemma run_fetched (h : Host) (username : string) (u : GitHubUser) (repos : list GitHubRepo) :
  fetchUserData h username = ([HttpGet (user_url username)], Returned u) ->
  fetchUserRepos h username = ([HttpGet (repos_url username)], Returned repos) ->
  run h username =
  ((banner h :: SpinnerStart "Fetching GitHub data..." ::
    HttpGet (user_url username) :: HttpGet (repos_url username) ::
    SpinnerSucceed "Data fetched successfully!" ::
    trace (displayUserInfo h u) ++ trace (displayRepoInfo repos))%list,
   Returned tt).
Proof.
  intros H1 H2; unfold run, action; rewrite H1, H2.
  pose proof (displayUserInfo_returns h u) as Hu.
  pose proof (displayRepoInfo_returns repos) as Hr.
  cbn [bind try_catch emit console_log app].
  destruct (displayUserInfo h u) as [tu ou], (displayRepoInfo repos) as [tr or].
  unfold result, trace in *; cbn [fst snd] in *; subst; reflexivity.
Qed.

(** Every fetch performs its request first, whatever the answer. *)
Lemma fetchUserData_trace (h : Host) (username : string) :
  trace (fetchUserData h username) = [HttpGet (user_url username)].
Proof.
  destruct (get_user h (user_url username)) as [r | e] eqn:Hget.
  - now rewrite (fetchUserData_resolved _ _ _ Hget).
  - now rewrite (fetchUserData_rejected _ _ _ Hget).
Qed.

Lemma fetchUserRepos_trace (h : Host) (username : string) :
  trace (fetchUserRepos h username) = [HttpGet (repos_url username)].
Proof.
  destruct (get_repos h (repos_url username)) as [r | e] eqn:Hget.
  - now rewrite (fetchUserRepos_resolved _ _ _ Hget).
  - now rewrite (fetchUserRepos_rejected _ _ _ Hget).
Qed.

Lemma fetch_never_exits_user (h : Host) (username : string) (c : Z) :
  result (fetchUserData h username) <> Exited c.
Proof.
  destruct (get_user h (user_url username)) as [r | e] eqn:Hget.
  - now rewrite (fetchUserData_resolved _ _ _ Hget).
  - now rewrite (fetchUserData_rejected _ _ _ Hget).
Qed.

Lemma fetch_never_exits_repos (h : Host) (username : string) (c : Z) :
  result (fetchUserRepos h username) <> Exited c.
Proof.
  destruct (get_repos h (repos_url username)) as [r | e] eqn:Hget.
  - now rewrite (fetchUserRepos_resolved _ _ _ Hget).
  - now rewrite (fetchUserRepos_rejected _ _ _ Hget).
Qed.

Lemma trace_pair {A} (t : list event) (o : outcome A) : trace (t, o) = t.
Proof. reflexivity. Qed.

Lemma cons_eq_inv {A} (x y : A) (l l' : list A) :
  x :: l = y :: l' -> x = y /\ l = l'.
Proof. intros H; now injection H. Qed.

Lemma prog_eta {A} (p : Prog A) : p = (trace p, result p).
Proof. now destruct p. Qed.

Lemma urls_differ (username : string) : user_url username <> repos_url username.
Proof.
  unfold user_url, repos_url; intros H.
  apply (f_equal String.length) in H.
  rewrite !length_append in H. cbn in H. lia.
Qed.

Lemma fetchUserData_eq (h : Host) (username : string) :
  fetchUserData h username =
  ([HttpGet (user_url username)], result (fetchUserData h username)).
Proof. rewrite (prog_eta (fetchUserData h username)) at 1. now rewrite fetchUserData_trace. Qed.

Lemma fetchUserRepos_eq (h : Host) (username : string) :
  fetchUserRepos h username =
  ([HttpGet (repos_url username)], result (fetchUserRepos h username)).
Proof. rewrite (prog_eta (fetchUserRepos h username)) at 1. now rewrite fetchUserRepos_trace. Qed.

Lemma displayUserInfo_prints (h : Host) (u : GitHubUser) :
  console_output (trace (displayUserInfo h u)) <> [].
Proof.
  unfold displayUserInfo.
  destruct (Js.truthy (name u)), (Js.truthy (bio u)); discriminate.
Qed.

Lemma displayRepoInfo_prints (repos : list GitHubRepo) :
  console_output (trace (displayRepoInfo repos)) <> [].
Proof.
  destruct repos as [| repo repos]; [discriminate |].
  now rewrite displayRepoInfo_nonempty.
Qed.

(** ** C3: the order of the two fetches *)

(** C3. In every run the request for the repositories is made only after the
    profile fetch has returned a profile, its own request coming earlier in
    the trace; when the profile fetch fails the repository request is never
    made, and the profile request is the only one of the run. *)
Theorem repos_fetch_only_after_profile (h : Host) (username : string) :
  (forall e, result (fetchUserData h username) = Threw e ->
     ~ In (HttpGet (repos_url username)) (trace (run h username)) /\
     http_requests (trace (run h username)) = [user_url username]) /\
  (forall before after,
     trace (run h username) = (before ++ HttpGet (repos_url username) :: after)%list ->
     (exists u, result (fetchUserData h username) = Returned u) /\
     In (HttpGet (user_url username)) before).
Proof.
  pose proof (fetchUserData_eq h username) as Hu.
  pose proof (fetchUserRepos_eq h username) as Hr.
  pose proof (urls_differ username) as Hdiff.
  split.
  - intros e He. rewrite He in Hu.
    rewrite (run_profile_rejected h username e Hu).
    split; [| reflexivity].
    rewrite <- http_requests_In.
    change (~ In (repos_url username) [user_url username]).
    intros [H | []]. exact (Hdiff H).
  - intros before after Hsplit.
    assert (Hreq : http_requests (trace (run h username)) =
                   (http_requests before ++ repos_url username :: http_requests after)%list).
    { rewrite Hsplit, http_requests_app. reflexivity. }
    destruct (result (fetchUserData h username)) as [u | e | c] eqn:Hres.
    + split; [now exists u |].
      assert (Hrun : http_requests (trace (run h username)) =
                     [user_url username; repos_url username]).
      { destruct (result (fetchUserRepos h username)) as [repos | e | c] eqn:Hres2.
        - rewrite (run_fetched h username u repos Hu Hr), trace_pair.
          cbn [http_requests banner].
          now rewrite http_requests_app, displayUserInfo_no_request,
            displayRepoInfo_no_request.
        - now rewrite (run_repos_rejected h username u e Hu Hr).
        - now apply fetch_never_exits_repos in Hres2. }
      rewrite Hrun in Hreq.
      apply http_requests_In.
      destruct (http_requests before) as [| first more]; cbn [app] in Hreq;
        apply cons_eq_inv in Hreq as [H _].
      * exact (Hdiff H).
      * subst first. now left.
    + exfalso.
      rewrite (run_profile_rejected h username e Hu), trace_pair in Hreq.
      change (http_requests _) with [user_url username] in Hreq at 1.
      destruct (http_requests before) as [| first more]; cbn [app] in Hreq;
        apply cons_eq_inv in Hreq as [H Hrest].
      * exact (Hdiff H).
      * now destruct more.
    + now apply fetch_never_exits_user in Hres.
Qed.

(** ** C4: what a failed fetch leaves behind *)

(** C4. When either fetch fails the process exits with code 1, the spinner
    fails with the message of the error, and the console shows the banner
    only: neither renderer has printed anything. When both fetches succeed
    the two renderers run in order and the exit code is 0. *)
Theorem fetch_failure_exits_without_rendering (h : Host) (username : string) :
  (forall e, result (fetchUserData h username) = Threw e ->
     exit_code (run h username) = 1%Z /\
     trace (run h username) =
       [banner h; SpinnerStart "Fetching GitHub data...";
        HttpGet (user_url username); SpinnerFail (Js.message e)] /\
     console_output (trace (run h username)) =
       [Line (Chalk yellow (figlet_textSync h "GitHub Stats"))]) /\
  (forall u e, result (fetchUserData h username) = Returned u ->
     result (fetchUserRepos h username) = Threw e ->
     exit_code (run h username) = 1%Z /\
     trace (run h username) =
       [banner h; SpinnerStart "Fetching GitHub data...";
        HttpGet (user_url username); HttpGet (repos_url username);
        SpinnerFail (Js.message e)] /\
     console_output (trace (run h username)) =
       [Line (Chalk yellow (figlet_textSync h "GitHub Stats"))]) /\
  (forall u repos, result (fetchUserData h username) = Returned u ->
     result (fetchUserRepos h username) = Returned repos ->
     exit_code (run h username) = 0%Z /\
     console_output (trace (run h username)) =
       (Line (Chalk yellow (figlet_textSync h "GitHub Stats")) ::
        console_output (trace (displayUserInfo h u)) ++
        console_output (trace (displayRepoInfo repos)))%list) /\
  (forall u repos, console_output (trace (displayUserInfo h u)) <> [] /\
                   console_output (trace (displayRepoInfo repos)) <> []).
Proof.
  pose proof (fetchUserData_eq h username) as Hu.
  pose proof (fetchUserRepos_eq h username) as Hr.
  split; [| split; [| split]].
  - intros e He. rewrite He in Hu.
    rewrite (run_profile_rejected h username e Hu). repeat split.
  - intros u e He1 He2. rewrite He1 in Hu. rewrite He2 in Hr.
    rewrite (run_repos_rejected h username u e Hu Hr). repeat split.
  - intros u repos He1 He2. rewrite He1 in Hu. rewrite He2 in Hr.
    rewrite (run_fetched h username u repos Hu Hr), trace_pair.
    split; [reflexivity |].
    cbn [console_output banner]. now rewrite console_output_app.
  - intros u repos. split.
    + apply displayUserInfo_prints.
    + apply displayRepoInfo_prints.
Qed.

(** ** C5: the failures of the repository fetch *)

(** C5. Every failure of [fetchUserRepos] is the generic FetchFailure, with
    the repository message, and never NotFound, whatever the cause: a 404
    answer of the remote service is treated like any other rejection. *)
Theorem fetchUserRepos_fails_generic (h : Host) (username : string) (e : Js.Thrown) :
  result (fetchUserRepos h username) = Threw e ->
  e = Js.new_Error repos_failure_message /\
  FetchFailure e /\
  (forall anyone, ~ NotFound anyone e).
Proof.
  intros He.
  destruct (get_repos h (repos_url username)) as [r | cause] eqn:Hget.
  - rewrite (fetchUserRepos_resolved _ _ _ Hget) in He. discriminate He.
  - rewrite (fetchUserRepos_rejected _ _ _ Hget) in He. injection He as <-.
    split; [reflexivity |]. split; [now right |].
    intros anyone Hnf. discriminate Hnf.
Qed.

Lemma fetchUserRepos_fails_iff_rejected (h : Host) (username : string) :
  (exists e, result (fetchUserRepos h username) = Threw e) <->
  (exists cause, get_repos h (repos_url username) = Rejected cause).
Proof.
  destruct (get_repos h (repos_url username)) as [r | cause] eqn:Hget.
  - rewrite (fetchUserRepos_resolved _ _ _ Hget).
    split; intros [x Hx]; discriminate Hx.
  - rewrite (fetchUserRepos_rejected _ _ _ Hget).
    split; intros _; eexists; reflexivity.
Qed.

(** ** C6: no repository *)

(** C6. For the empty list [displayRepoInfo] prints the notice
    "No repositories found." and nothing else: no header, no table. *)
Theorem displayRepoInfo_empty_notice_only :
  displayRepoInfo [] =
    ([ConsoleLog (Line (Chalk yellow (String "010" "No repositories found.")))],
     Returned tt) /\
  (forall t, ~ In (ConsoleLog (TableString t)) (trace (displayRepoInfo []))).
Proof.
  split; [reflexivity |].
  intros t [H | []]. discriminate H.
Qed.

(** ** C7: the language cell *)

(** C7, as the code has it. The language cell of a row is ["N/A"] when the
    repository has no language, and also when its language is the empty
    string; it is the language itself when that is a non-empty string. *)
Theorem language_cell_or_NA (repo : GitHubRepo) :
  exists c,
    nth_error (repo_row repo) 4 = Some (TextCell (Plain c)) /\
    (language repo = None -> c = "N/A") /\
    (language repo = Some "" -> c = "N/A") /\
    (forall l, language repo = Some l -> l <> "" -> c = l).
Proof.
  exists (language_cell (language repo)).
  split; [reflexivity |].
  repeat split.
  - now intros ->.
  - now intros ->.
  - intros l -> Hl. destruct l as [| ch l]; [contradiction | reflexivity].
Qed.

(** C7 as stated fails for a language that is present and empty: the cell
    is ["N/A"], not that language. *)
Lemma language_present_but_empty :
  language Sample.dotfiles = Some "" /\
  nth_error (repo_row Sample.dotfiles) 4 = Some (TextCell (Plain "N/A")) /\
  nth_error (repo_row Sample.dotfiles) 4 <> Some (TextCell (Plain "")).
Proof. repeat split. discriminate. Qed.

(** ** The profile, line by line *)

Lemma displayUserInfo_trace (h : Host) (u : GitHubUser) :
  trace (displayUserInfo h u) =
  ([ConsoleLog (Line (Chalk bold (String "010" "User Information:")));
    ConsoleLog (Line (Chalk blue ("Username: " ++ login u)))]
   ++ optional_line "Name: " (name u)
   ++ optional_line "Bio: " (bio u)
   ++ [ConsoleLog (Line (Chalk blue ("Profile URL: " ++ html_url u)));
       ConsoleLog (Line (Chalk blue ("Account Created: " ++
                                     toLocaleDateString h (created_at u))));
       ConsoleLog (Line (Chalk bold (String "010" "Stats:")));
       ConsoleLog (Line (Chalk green ("Public Repositories: " ++
                                      Js.show_number (public_repos u))));
       ConsoleLog (Line (Chalk green ("Followers: " ++ Js.show_number (followers u))));
       ConsoleLog (Line (Chalk green ("Following: " ++ Js.show_number (following u))))])%list.
Proof.
  unfold displayUserInfo, optional_line.
  destruct (Js.truthy (name u)), (Js.truthy (bio u)); reflexivity.
Qed.

Lemma optional_line_present (label : string) (o : option string) :
  optional_line label o = [] \/
  exists s, o = Some s /\ s <> "" /\
            optional_line label o = [ConsoleLog (Line (Chalk blue (label ++ s)))].
Proof.
  destruct o as [[| c s] |]; [now left | | now left].
  right. exists (String c s). repeat split. discriminate.
Qed.

Lemma optional_line_nonempty (label : string) (s : string) :
  s <> "" ->
  optional_line label (Some s) = [ConsoleLog (Line (Chalk blue (label ++ s)))].
Proof. destruct s as [| c s]; [contradiction | reflexivity]. Qed.

(** ** C8: the order of the profile lines *)

(** C8. [displayUserInfo] prints, in this order: the username; a name line,
    which appears only if the profile has a name; a bio line, only if it
    has a bio; the profile URL; the creation date as the locale's
    [toLocaleDateString] gives it; then the stats block with the counts of
    public repositories, followers and following. *)
Theorem displayUserInfo_order (h : Host) (u : GitHubUser) :
  exists name_lines bio_lines,
    displayUserInfo h u =
    (([ConsoleLog (Line (Chalk bold (String "010" "User Information:")));
       ConsoleLog (Line (Chalk blue ("Username: " ++ login u)))]
      ++ name_lines
      ++ bio_lines
      ++ [ConsoleLog (Line (Chalk blue ("Profile URL: " ++ html_url u)));
          ConsoleLog (Line (Chalk blue ("Account Created: " ++
                                        toLocaleDateString h (created_at u))));
          ConsoleLog (Line (Chalk bold (String "010" "Stats:")));
          ConsoleLog (Line (Chalk green ("Public Repositories: " ++
                                         Js.show_number (public_repos u))));
          ConsoleLog (Line (Chalk green ("Followers: " ++ Js.show_number (followers u))));
          ConsoleLog (Line (Chalk green ("Following: " ++ Js.show_number (following u))))])%list,
     Returned tt) /\
    (name_lines = [] \/
     exists n, name u = Some n /\
               name_lines = [ConsoleLog (Line (Chalk blue ("Name: " ++ n)))]) /\
    (bio_lines = [] \/
     exists b, bio u = Some b /\
               bio_lines = [ConsoleLog (Line (Chalk blue ("Bio: " ++ b)))]) /\
    (forall n, name u = Some n -> n <> "" ->
               name_lines = [ConsoleLog (Line (Chalk blue ("Name: " ++ n)))]) /\
    (forall b, bio u = Some b -> b <> "" ->
               bio_lines = [ConsoleLog (Line (Chalk blue ("Bio: " ++ b)))]).
Proof.
  exists (optional_line "Name: " (name u)), (optional_line "Bio: " (bio u)).
  split; [| split; [| split; [| split]]].
  - rewrite (prog_eta (displayUserInfo h u)).
    now rewrite displayUserInfo_trace, displayUserInfo_returns.
  - destruct (optional_line_present "Name: " (name u)) as [H | [n [Hn [_ H]]]];
      [now left | right; now exists n].
  - destruct (optional_line_present "Bio: " (bio u)) as [H | [b [Hb [_ H]]]];
      [now left | right; now exists b].
  - intros n -> Hn. now apply optional_line_nonempty.
  - intros b -> Hb. now apply optional_line_nonempty.
Qed.

(** ** C9: a user with repositories *)

Lemma includes_after (label s : string) : Js.includes (label ++ s) s.
Proof. exists label, "". now rewrite append_empty_r. Qed.

Lemma displayUserInfo_shows_login (h : Host) (u : GitHubUser) :
  In (Line (Chalk blue ("Username: " ++ login u)))
     (console_output (trace (displayUserInfo h u))).
Proof. rewrite displayUserInfo_trace. right. now left. Qed.

Lemma displayUserInfo_shows_date (h : Host) (u : GitHubUser) :
  In (Line (Chalk blue ("Account Created: " ++ toLocaleDateString h (created_at u))))
     (console_output (trace (displayUserInfo h u))).
Proof.
  rewrite displayUserInfo_trace, !console_output_app.
  apply in_or_app; right. apply in_or_app; right. apply in_or_app; right.
  right. now left.
Qed.

(** C9. When the profile of [username] is fetched and the service answers
    the repository query, which asks for [per_page=5], with the first five
    of the user's repositories, of which there is at least one: the profile
    output has a line containing the login and a line containing the
    reformatted creation date, and the table printed after it has one row
    per fetched repository, that is [min 5 (length all_repos)] rows. *)
Theorem existing_user_rendering
    (h : Host) (username : string) (u : GitHubUser) (all_repos : list GitHubRepo) :
  get_user h (user_url username) = Resolved (mkResponse u) ->
  get_repos h (repos_url username) = Resolved (mkResponse (firstn 5 all_repos)) ->
  all_repos <> [] ->
  Js.includes (repos_url username) "per_page=5" /\
  In (HttpGet (repos_url username)) (trace (run h username)) /\
  (exists line,
     In (Line line) (console_output (trace (displayUserInfo h u))) /\
     Js.includes (text_content line) (login u)) /\
  (exists line,
     In (Line line) (console_output (trace (displayUserInfo h u))) /\
     Js.includes (text_content line) (toLocaleDateString h (created_at u))) /\
  exists table,
    console_output (trace (run h username)) =
      (Line (Chalk yellow (figlet_textSync h "GitHub Stats")) ::
       console_output (trace (displayUserInfo h u)) ++
       [Line (Chalk bold (String "010" "Top 5 Repositories:"));
        TableString table])%list /\
    rows table = map repo_row (firstn 5 all_repos) /\
    List.length (rows table) = Nat.min 5 (List.length all_repos).
Proof.
  intros Huser Hrepos Hne.
  pose proof (fetchUserData_resolved h username _ Huser) as Hu.
  pose proof (fetchUserRepos_resolved h username _ Hrepos) as Hr.
  cbn [data] in Hu, Hr.
  assert (Hfetched : firstn 5 all_repos <> []).
  { destruct all_repos; [contradiction | discriminate]. }
  split; [| split; [| split; [| split]]].
  - exists ("https://api.github.com/users/" ++ username ++ "/repos?sort=updated&"), "".
    unfold repos_url.
    change "/repos?sort=updated&per_page=5"
      with ("/repos?sort=updated&" ++ "per_page=5" ++ "").
    now rewrite !append_assoc.
  - rewrite (run_fetched h username u _ Hu Hr), trace_pair.
    right; right; right; now left.
  - eexists; split; [apply displayUserInfo_shows_login |].
    apply includes_after.
  - eexists; split; [apply displayUserInfo_shows_date |].
    apply includes_after.
  - eexists.
    rewrite (run_fetched h username u _ Hu Hr), trace_pair.
    rewrite (displayRepoInfo_nonempty _ Hfetched), trace_pair.
    cbn [console_output banner]. rewrite console_output_app.
    split; [reflexivity |]. cbn [rows].
    split; [reflexivity |].
    now rewrite length_map, length_firstn.
Qed.

Example existing_user_rendering_witness :
  get_user Sample.service (user_url "octocat") = Resolved (mkResponse Sample.octocat) /\
  get_repos Sample.service (repos_url "octocat") =
    Resolved (mkResponse (firstn 5 Sample.seven_repos)) /\
  Sample.seven_repos <> [] /\
  exists table,
    console_output (trace (run Sample.service "octocat")) =
      (Line (Chalk yellow "GitHub Stats") ::
       console_output (trace (displayUserInfo Sample.service Sample.octocat)) ++
       [Line (Chalk bold (String "010" "Top 5 Repositories:"));
        TableString table])%list /\
    rows table = map repo_row (firstn 5 Sample.seven_repos) /\
    List.length (rows table) = 5.
Proof.
  split; [reflexivity |]. split; [reflexivity |]. split; [discriminate |].
  apply (existing_user_rendering Sample.service "octocat" Sample.octocat
           Sample.seven_repos); [reflexivity | reflexivity | discriminate].
Defined.

(** ** C10: an empty string is treated as an absent field *)

Lemma optional_line_empty (label : string) :
  optional_line label (Some "") = optional_line label None.
Proof. reflexivity. Qed.

Lemma no_name_line (h : Host) (u : GitHubUser) (s : string) :
  Js.truthy (name u) = false ->
  ~ In (ConsoleLog (Line (Chalk blue ("Name: " ++ s)))) (trace (displayUserInfo h u)).
Proof.
  intros Hfalsy. rewrite displayUserInfo_trace.
  unfold optional_line at 1. rewrite Hfalsy.
  intros Hin. cbn [app] in Hin.
  destruct Hin as [H | [H | Hin]]; try discriminate H.
  apply in_app_or in Hin as [Hin | Hin].
  - unfold optional_line in Hin.
    destruct (Js.truthy (bio u)); [| contradiction].
    destruct Hin as [H | []]. discriminate H.
  - repeat (destruct Hin as [H | Hin]; [discriminate H |]). contradiction.
Qed.

Lemma no_bio_line (h : Host) (u : GitHubUser) (s : string) :
  Js.truthy (bio u) = false ->
  ~ In (ConsoleLog (Line (Chalk blue ("Bio: " ++ s)))) (trace (displayUserInfo h u)).
Proof.
  intros Hfalsy. rewrite displayUserInfo_trace.
  unfold optional_line at 2. rewrite Hfalsy.
  intros Hin. cbn [app] in Hin.
  destruct Hin as [H | [H | Hin]]; try discriminate H.
  apply in_app_or in Hin as [Hin | Hin].
  - unfold optional_line in Hin.
    destruct (Js.truthy (name u)); [| contradiction].
    destruct Hin as [H | []]. discriminate H.
  - repeat (destruct Hin as [H | Hin]; [discriminate H |]). contradiction.
Qed.

(** C10. For the renderers an optional field that holds the empty string is
    the same as a missing one: the language cell is ["N/A"] for an empty
    language, as for none, and [displayUserInfo] prints no name line and no
    bio line for an empty name or bio, with the very output it gives when
    the field is missing. *)
Theorem empty_string_renders_as_absent (h : Host) (u : GitHubUser) (repo : GitHubRepo) :
  nth_error (repo_row (set_language repo (Some ""))) 4 = Some (TextCell (Plain "N/A")) /\
  repo_row (set_language repo (Some "")) = repo_row (set_language repo None) /\
  displayUserInfo h (set_name u (Some "")) = displayUserInfo h (set_name u None) /\
  displayUserInfo h (set_bio u (Some "")) = displayUserInfo h (set_bio u None) /\
  (forall s, ~ In (ConsoleLog (Line (Chalk blue ("Name: " ++ s))))
               (trace (displayUserInfo h (set_name u (Some ""))))) /\
  (forall s, ~ In (ConsoleLog (Line (Chalk blue ("Bio: " ++ s))))
               (trace (displayUserInfo h (set_bio u (Some ""))))).
Proof.
  split; [reflexivity |]. split; [reflexivity |].
  split; [reflexivity |]. split; [reflexivity |].
  split; intros s.
  - now apply no_name_line.
  - now apply no_bio_line.
Qed.

Example empty_fields_of_dotfiles :
  repo_row Sample.dotfiles =
  [ TextCell (Chalk cyan "dotfiles"); TextCell (Plain "");
    NumCell 12; NumCell 3; TextCell (Plain "N/A") ].
Proof. reflexivity. Qed.

Example octocat_profile :
  console_output (trace (displayUserInfo Sample.service Sample.octocat)) =
  [ Line (Chalk bold (String "010" "User Information:"));
    Line (Chalk blue "Username: octocat");
    Line (Chalk blue "Name: The Octocat");
    Line (Chalk blue "Profile URL: https://github.com/octocat");
    Line (Chalk blue "Account Created: 2011-01-25");
    Line (Chalk bold (String "010" "Stats:"));
    Line (Chalk green "Public Repositories: 8");
    Line (Chalk green "Followers: 9999");
    Line (Chalk green "Following: 9") ].
Proof. reflexivity. Qed.

Example unknown_user_run :
  run Sample.service "ghost" =
  ([ ConsoleLog (Line (Chalk yellow "GitHub Stats"));
     SpinnerStart "Fetching GitHub data...";
     HttpGet "https://api.github.com/users/ghost";
     SpinnerFail "User 'ghost' not found on GitHub" ],
   Exited 1).
Proof. reflexivity. Qed.

(** ** The statements at the sample inputs *)

Example fetchUserData_failure_kinds_witness :
  (reports_not_found (get_user Sample.service (user_url "ghost")) /\
   exists e, result (fetchUserData Sample.service "ghost") = Threw e /\
             NotFound "ghost" e /\
             Js.includes (Js.message e) "ghost" /\
             Js.includes (Js.message e) "not found") /\
  (get_user Sample.offline (user_url "octocat") = Rejected Sample.network_error /\
   ~ reports_not_found (get_user Sample.offline (user_url "octocat")) /\
   result (fetchUserData Sample.offline "octocat") =
     Threw (Js.new_Error user_failure_message)).
Proof.
  split.
  - destruct (fetchUserData_failure_kinds Sample.service "ghost")
      as [[_ Hkind] [Hmessage _]].
    assert (H404 : reports_not_found (get_user Sample.service (user_url "ghost"))).
    { eexists. repeat split; reflexivity. }
    split; [exact H404 |].
    destruct (Hkind H404) as [e [He Hnf]].
    exists e. split; [exact He |]. split; [exact Hnf |].
    exact (Hmessage e He Hnf).
  - destruct (fetchUserData_failure_kinds Sample.offline "octocat")
      as [_ [_ [Hgeneric _]]].
    assert (Hother : ~ reports_not_found (get_user Sample.offline (user_url "octocat"))).
    { intros [e [He [_ Hstatus]]]. injection He as <-. discriminate Hstatus. }
    split; [reflexivity |]. split; [exact Hother |].
    exact (proj1 (Hgeneric Sample.network_error eq_refl Hother)).
Defined.

Example repos_fetch_only_after_profile_witness :
  (result (fetchUserData Sample.service "ghost") =
     Threw (Js.new_Error (not_found_message "ghost")) /\
   http_requests (trace (run Sample.service "ghost")) = [user_url "ghost"]) /\
  (trace (run Sample.service "octocat") =
     ([banner Sample.service; SpinnerStart "Fetching GitHub data...";
       HttpGet (user_url "octocat")]
      ++ HttpGet (repos_url "octocat")
      :: SpinnerSucceed "Data fetched successfully!"
      :: trace (displayUserInfo Sample.service Sample.octocat)
      ++ trace (displayRepoInfo (firstn 5 Sample.seven_repos)))%list /\
   (exists u, result (fetchUserData Sample.service "octocat") = Returned u)).
Proof.
  split.
  - destruct (repos_fetch_only_after_profile Sample.service "ghost") as [Hfail _].
    split; [reflexivity |].
    exact (proj2 (Hfail _ eq_refl)).
  - destruct (repos_fetch_only_after_profile Sample.service "octocat") as [_ Hafter].
    split; [reflexivity |].
    exact (proj1 (Hafter
                    [banner Sample.service; SpinnerStart "Fetching GitHub data...";
                     HttpGet (user_url "octocat")]
                    (SpinnerSucceed "Data fetched successfully!"
                     :: trace (displayUserInfo Sample.service Sample.octocat)
                     ++ trace (displayRepoInfo (firstn 5 Sample.seven_repos)))%list
                    eq_refl)).
Defined.

Example fetch_failure_exits_without_rendering_witness :
  (result (fetchUserData Sample.service "ghost") =
     Threw (Js.new_Error (not_found_message "ghost")) /\
   exit_code (run Sample.service "ghost") = 1%Z) /\
  (result (fetchUserData Sample.profile_only "octocat") = Returned Sample.octocat /\
   result (fetchUserRepos Sample.profile_only "octocat") =
     Threw (Js.new_Error repos_failure_message) /\
   exit_code (run Sample.profile_only "octocat") = 1%Z /\
   console_output (trace (run Sample.profile_only "octocat")) =
     [Line (Chalk yellow "GitHub Stats")]) /\
  (result (fetchUserData Sample.service "octocat") = Returned Sample.octocat /\
   result (fetchUserRepos Sample.service "octocat") =
     Returned (firstn 5 Sample.seven_repos) /\
   exit_code (run Sample.service "octocat") = 0%Z).
Proof.
  split; [| split].
  - destruct (fetch_failure_exits_without_rendering Sample.service "ghost")
      as [Hprofile _].
    split; [reflexivity |].
    exact (proj1 (Hprofile _ eq_refl)).
  - destruct (fetch_failure_exits_without_rendering Sample.profile_only "octocat")
      as [_ [Hrepos _]].
    split; [reflexivity |]. split; [reflexivity |].
    destruct (Hrepos _ _ eq_refl eq_refl) as [Hexit [_ Hconsole]].
    split; [exact Hexit | exact Hconsole].
  - destruct (fetch_failure_exits_without_rendering Sample.service "octocat")
      as [_ [_ [Hok _]]].
    split; [reflexivity |]. split; [reflexivity |].
    exact (proj1 (Hok _ _ eq_refl eq_refl)).
Defined.

Example description_cell_truncates_witness :
  description Sample.spoon_knife = Some "This repo is for demonstration purposes only." /\
  exists c,
    nth_error (repo_row Sample.spoon_knife) 1 = Some (TextCell (Plain c)) /\
    (27 < String.length "This repo is for demonstration purposes only." ->
       exists first rest,
         "This repo is for demonstration purposes only." = first ++ rest /\
         String.length first = 27 /\ c = first ++ "...") /\
    (String.length "This repo is for demonstration purposes only." <= 27 ->
       c = "This repo is for demonstration purposes only.") /\
    ("This repo is for demonstration purposes only." = "" -> c = "").
Proof.
  split; [reflexivity |].
  apply (description_cell_truncates Sample.spoon_knife); reflexivity.
Defined.

Example spoon_knife_cell :
  description_cell (description Sample.spoon_knife) = "This repo is for demonstrat...".
Proof. reflexivity. Qed.

Example fetchUserRepos_fails_generic_witness :
  result (fetchUserRepos Sample.service "ghost") =
    Threw (Js.new_Error repos_failure_message) /\
  (Js.new_Error repos_failure_message = Js.new_Error repos_failure_message /\
   FetchFailure (Js.new_Error repos_failure_message) /\
   (forall anyone, ~ NotFound anyone (Js.new_Error repos_failure_message))).
Proof.
  split; [reflexivity |].
  apply (fetchUserRepos_fails_generic Sample.service "ghost"); reflexivity.
Defined.

(** * Further properties of the code *)

(** ** The repository table *)

Lemma displayRepoInfo_table (repos : list GitHubRepo) (t : Table) :
  In (ConsoleLog (TableString t)) (trace (displayRepoInfo repos)) ->
  repos <> [] /\
  t = {| head := table_head; colWidths := [20; 30; 10; 10; 15]%nat;
         rows := map repo_row repos |}.
Proof.
  destruct repos as [| repo repos].
  - intros [H | []]. discriminate H.
  - assert (Hne : repo :: repos <> []) by discriminate.
    rewrite (displayRepoInfo_nonempty _ Hne), trace_pair.
    intros [H | [H | []]]; [discriminate H |].
    injection H as <-. now split.
Qed.

(** X1. Whatever table [displayRepoInfo] prints is rectangular: five header
    columns, five column widths, and five cells in every row. *)
Theorem displayRepoInfo_table_shape (repos : list GitHubRepo) (t : Table) :
  In (ConsoleLog (TableString t)) (trace (displayRepoInfo repos)) ->
  List.length (head t) = 5 /\
  List.length (colWidths t) = 5 /\
  Forall (fun row => List.length row = 5) (rows t).
Proof.
  intros Hin. apply displayRepoInfo_table in Hin as [_ ->].
  split; [reflexivity |]. split; [reflexivity |].
  cbn [rows]. apply Forall_forall. intros row Hrow.
  apply in_map_iff in Hrow as [repo [<- _]]. reflexivity.
Qed.

(** X2. The printed table follows the list it was given: row [i] is built
    from repository [i], and there are as many rows as repositories. The
    renderer itself does not stop at five. *)
Theorem displayRepoInfo_rows_follow_list (repos : list GitHubRepo) (t : Table) :
  In (ConsoleLog (TableString t)) (trace (displayRepoInfo repos)) ->
  List.length (rows t) = List.length repos /\
  (forall i, nth_error (rows t) i = option_map repo_row (nth_error repos i)) /\
  (forall i repo, nth_error repos i = Some repo ->
     nth_error (rows t) i =
       Some [ TextCell (Chalk cyan (repo_name repo));
              TextCell (Plain (description_cell (description repo)));
              NumCell (stargazers_count repo);
              NumCell (forks_count repo);
              TextCell (Plain (language_cell (language repo))) ]).
Proof.
  intros Hin. apply displayRepoInfo_table in Hin as [_ ->]. cbn [rows].
  split; [apply length_map |].
  split.
  - intros i. apply nth_error_map.
  - intros i repo Hi. now rewrite nth_error_map, Hi.
Qed.

(** X3. Pushing repositories on a table appends their rows, in order, after
    the rows already there, and leaves the header and the widths alone. *)
Theorem push_repos_appends (t : Table) (repos more : list GitHubRepo) :
  head (push_repos t repos) = head t /\
  colWidths (push_repos t repos) = colWidths t /\
  rows (push_repos t repos) = (rows t ++ map repo_row repos)%list /\
  push_repos t (repos ++ more) = push_repos (push_repos t repos) more.
Proof.
  split; [| split; [| split]].
  - now rewrite push_repos_rows.
  - now rewrite push_repos_rows.
  - now rewrite push_repos_rows.
  - unfold push_repos. apply fold_left_app.
Qed.

(** ** The width of the description cell *)

Lemma js_substring_length (s : string) (n : nat) :
  String.length (Js.substring s 0 n) = Nat.min n (String.length s).
Proof.
  destruct (Nat.le_ge_cases n (String.length s)) as [Hle | Hge].
  - destruct (js_substring_long s n Hle) as [rest [_ Hlen]].
    rewrite Hlen. now rewrite Nat.min_l.
  - rewrite js_substring_short by exact Hge. now rewrite Nat.min_r.
Qed.

(** X4. The description cell has the length of the description up to 27
    characters and 30 characters beyond; so it never exceeds 30, and it is
    shorter than the description only when that has more than 30
    characters: a description of 28 or 29 characters gets a longer cell. *)
Theorem description_cell_length (o : option string) (d : string) :
  String.length (description_cell o) <= 30 /\
  String.length (description_cell (Some d)) =
    (if Nat.ltb 27 (String.length d) then 30 else String.length d) /\
  (String.length (description_cell (Some d)) < String.length d <->
   30 < String.length d) /\
  (String.length d < String.length (description_cell (Some d)) <->
   String.length d = 28 \/ String.length d = 29).
Proof.
  assert (Hlen : forall s, String.length (description_cell (Some s)) =
                           (if Nat.ltb 27 (String.length s) then 30
                            else String.length s)).
  { intros [| c s]; [reflexivity |].
    unfold description_cell. rewrite length_append, js_substring_length.
    destruct (Nat.ltb 27 (String.length (String c s))) eqn:Hcmp.
    - apply Nat.ltb_lt in Hcmp. rewrite Nat.min_l by lia. reflexivity.
    - apply Nat.ltb_ge in Hcmp. rewrite Nat.min_r by lia. cbn [String.length]. lia. }
  split; [| split; [| split]].
  - destruct o as [s |]; [| cbn; lia].
    rewrite Hlen. destruct (Nat.ltb 27 (String.length s)) eqn:Hcmp; [lia |].
    apply Nat.ltb_ge in Hcmp. lia.
  - apply Hlen.
  - rewrite Hlen. destruct (Nat.ltb 27 (String.length d)) eqn:Hcmp.
    + apply Nat.ltb_lt in Hcmp. lia.
    + apply Nat.ltb_ge in Hcmp. lia.
  - rewrite Hlen. destruct (Nat.ltb 27 (String.length d)) eqn:Hcmp.
    + apply Nat.ltb_lt in Hcmp. lia.
    + apply Nat.ltb_ge in Hcmp. lia.
Qed.

Example description_of_28_characters :
  description_cell (Some "twenty-eight characters long") =
  "twenty-eight characters lon...".
Proof. reflexivity. Qed.

(** X5. The language cell is never blank, whatever the repository says. *)
Theorem language_cell_never_blank (repo : GitHubRepo) :
  language_cell (language repo) <> "" /\
  nth_error (repo_row repo) 4 <> Some (TextCell (Plain "")).
Proof.
  assert (H : language_cell (language repo) <> "").
  { destruct (language repo) as [[| c l] |]; discriminate. }
  split; [exact H |].
  intros Hcell. apply H. cbn in Hcell. now injection Hcell.
Qed.

Example displayRepoInfo_table_shape_witness :
  In (ConsoleLog (TableString (repo_table Sample.seven_repos)))
     (trace (displayRepoInfo Sample.seven_repos)) /\
  List.length (head (repo_table Sample.seven_repos)) = 5 /\
  List.length (colWidths (repo_table Sample.seven_repos)) = 5 /\
  Forall (fun row => List.length row = 5) (rows (repo_table Sample.seven_repos)).
Proof.
  assert (Hin : In (ConsoleLog (TableString (repo_table Sample.seven_repos)))
                   (trace (displayRepoInfo Sample.seven_repos))).
  { right. left. reflexivity. }
  split; [exact Hin |].
  exact (displayRepoInfo_table_shape Sample.seven_repos _ Hin).
Defined.

Example displayRepoInfo_rows_follow_list_witness :
  In (ConsoleLog (TableString (repo_table Sample.seven_repos)))
     (trace (displayRepoInfo Sample.seven_repos)) /\
  List.length (rows (repo_table Sample.seven_repos)) = 7 /\
  nth_error (rows (repo_table Sample.seven_repos)) 6 =
    Some [ TextCell (Chalk cyan "test-repo1"); TextCell (Plain "");
           NumCell 12; NumCell 3; TextCell (Plain "N/A") ].
Proof.
  assert (Hin : In (ConsoleLog (TableString (repo_table Sample.seven_repos)))
                   (trace (displayRepoInfo Sample.seven_repos))).
  { right. left. reflexivity. }
  split; [exact Hin |].
  destruct (displayRepoInfo_rows_follow_list Sample.seven_repos _ Hin)
    as [Hcount [_ Hrow]].
  split; [exact Hcount |].
  exact (Hrow 6 (Sample.repo "test-repo1" None None) eq_refl).
Defined.

(** ** The fetchers *)

(** X6. A fetch returns exactly the payload of the response, and returns
    at all exactly when the request is resolved: nothing is added, dropped
    or defaulted on the way. *)
Theorem fetchers_return_payload (h : Host) (username : string) :
  (forall u, result (fetchUserData h username) = Returned u <->
             exists r, get_user h (user_url username) = Resolved r /\ data r = u) /\
  (forall repos, result (fetchUserRepos h username) = Returned repos <->
                 exists r, get_repos h (repos_url username) = Resolved r /\
                           data r = repos).
Proof.
  split.
  - intros u.
    destruct (get_user h (user_url username)) as [r | cause] eqn:Hget.
    + rewrite (fetchUserData_resolved _ _ _ Hget). cbn [result snd]. split.
      * intros H. injection H as <-. now exists r.
      * intros [r' [Hr <-]]. now injection Hr as <-.
    + rewrite (fetchUserData_rejected _ _ _ Hget). cbn [result snd]. split.
      * intros H. discriminate H.
      * intros [r' [Hr _]]. discriminate Hr.
  - intros repos.
    destruct (get_repos h (repos_url username)) as [r | cause] eqn:Hget.
    + rewrite (fetchUserRepos_resolved _ _ _ Hget). cbn [result snd]. split.
      * intros H. injection H as <-. now exists r.
      * intros [r' [Hr <-]]. now injection Hr as <-.
    + rewrite (fetchUserRepos_rejected _ _ _ Hget). cbn [result snd]. split.
      * intros H. discriminate H.
      * intros [r' [Hr _]]. discriminate Hr.
Qed.

(** X7. Each fetcher sends one request, to its own URL, whether it then
    returns or throws: a failed request is not tried again. What it throws
    is a fresh [Error]: the cause, with its status and its message, is
    dropped. *)
Theorem fetchers_send_one_request (h : Host) (username : string) :
  fetchUserData h username =
    ([HttpGet (user_url username)], result (fetchUserData h username)) /\
  fetchUserRepos h username =
    ([HttpGet (repos_url username)], result (fetchUserRepos h username)) /\
  (forall e, result (fetchUserData h username) = Threw e \/
             result (fetchUserRepos h username) = Threw e ->
             Js.isAxiosError e = false /\ Js.response_status e = None /\
             (Js.message e = not_found_message username \/
              Js.message e = user_failure_message \/
              Js.message e = repos_failure_message)).
Proof.
  split; [apply fetchUserData_eq |]. split; [apply fetchUserRepos_eq |].
  intros e [He | He].
  - destruct (get_user h (user_url username)) as [r | cause] eqn:Hget.
    + rewrite (fetchUserData_resolved _ _ _ Hget) in He. discriminate He.
    + rewrite (fetchUserData_rejected _ _ _ Hget) in He.
      cbn [result snd] in He. injection He as <-.
      split; [reflexivity |]. split; [reflexivity |].
      cbn [Js.message Js.new_Error].
      destruct (Js.isAxiosError cause && status_is (Js.response_status cause) 404);
        [now left | right; now left].
  - destruct (get_repos h (repos_url username)) as [r | cause] eqn:Hget.
    + rewrite (fetchUserRepos_resolved _ _ _ Hget) in He. discriminate He.
    + rewrite (fetchUserRepos_rejected _ _ _ Hget) in He.
      cbn [result snd] in He. injection He as <-.
      split; [reflexivity |]. split; [reflexivity |]. right; now right.
Qed.

(** ** The URLs *)

Lemma append_same_length (a b x y : string) :
  String.length a = String.length b -> a ++ x = b ++ y -> a = b /\ x = y.
Proof.
  revert b; induction a as [| c a IH]; intros [| c' b] Hlen Heq;
    cbn in Hlen; try discriminate Hlen.
  - now split.
  - cbn in Heq. injection Heq as -> Heq.
    destruct (IH b) as [-> ->]; [now injection Hlen | exact Heq |].
    now split.
Qed.

Lemma append_cancel_l (a x y : string) : a ++ x = a ++ y -> x = y.
Proof. intros H. now apply (append_same_length a a x y). Qed.

Lemma append_cancel_r (a b x : string) : a ++ x = b ++ x -> a = b.
Proof.
  intros H. apply (append_same_length a b x x); [| exact H].
  apply (f_equal String.length) in H. rewrite !length_append in H. lia.
Qed.

(** X8. The username is put in the URL as it is, without encoding: two
    usernames give the same profile URL, or the same repository URL, only if
    they are equal; the repository URL is the profile URL followed by the
    fixed query for the five most recently updated repositories; and the
    profile URL of [a] is the repository URL of [b] exactly when [a] is [b]
    followed by that query. *)
Theorem urls_tell_usernames_apart (a b : string) :
  (user_url a = user_url b <-> a = b) /\
  (repos_url a = repos_url b <-> a = b) /\
  repos_url a = user_url a ++ "/repos?sort=updated&per_page=5" /\
  (user_url a = repos_url b <-> a = b ++ "/repos?sort=updated&per_page=5").
Proof.
  split; [| split; [| split]].
  - split; [| now intros ->].
    unfold user_url. apply append_cancel_l.
  - split; [| now intros ->].
    unfold repos_url. intros H. apply append_cancel_l in H.
    now apply append_cancel_r in H.
  - unfold repos_url, user_url. now rewrite append_assoc.
  - unfold user_url, repos_url. split.
    + apply append_cancel_l.
    + now intros ->.
Qed.

(** ** The renderers write to the console only *)

Lemma console_only_views (t : list event) :
  forallb is_console_log t = true ->
  spinner_events t = [] /\ http_requests t = [] /\
  List.length (console_output t) = List.length t.
Proof.
  induction t as [| ev t IH]; [now repeat split |].
  destruct ev; cbn; try discriminate.
  intros H. destruct (IH H) as [Hs [Hr Hl]]. now rewrite Hl.
Qed.

Lemma displayUserInfo_console_only (h : Host) (u : GitHubUser) :
  forallb is_console_log (trace (displayUserInfo h u)) = true.
Proof.
  unfold displayUserInfo.
  destruct (Js.truthy (name u)), (Js.truthy (bio u)); reflexivity.
Qed.

Lemma displayRepoInfo_console_only (repos : list GitHubRepo) :
  forallb is_console_log (trace (displayRepoInfo repos)) = true.
Proof.
  destruct repos as [| repo repos]; [reflexivity |].
  now rewrite displayRepoInfo_nonempty.
Qed.

(** X9. [displayUserInfo] prints eight lines, and one more for each of the
    name and the bio that is a non-empty string; [displayRepoInfo] prints
    one line for an empty list and two otherwise, the title and the table,
    however many repositories there are. Neither does anything but print. *)
Theorem renderers_line_counts (h : Host) (u : GitHubUser) (repos : list GitHubRepo) :
  List.length (console_output (trace (displayUserInfo h u))) =
    8 + (if Js.truthy (name u) then 1 else 0) + (if Js.truthy (bio u) then 1 else 0) /\
  List.length (console_output (trace (displayRepoInfo repos))) =
    (if Nat.eqb (List.length repos) 0 then 1 else 2) /\
  forallb is_console_log (trace (displayUserInfo h u)) = true /\
  forallb is_console_log (trace (displayRepoInfo repos)) = true.
Proof.
  split; [| split; [| split]].
  - unfold displayUserInfo.
    destruct (Js.truthy (name u)), (Js.truthy (bio u)); reflexivity.
  - destruct repos as [| repo repos]; [reflexivity |].
    now rewrite displayRepoInfo_nonempty.
  - apply displayUserInfo_console_only.
  - apply displayRepoInfo_console_only.
Qed.

(** ** The driver, by the answers of the service *)

Lemma spinner_events_app (t1 t2 : list event) :
  spinner_events (t1 ++ t2) = (spinner_events t1 ++ spinner_events t2)%list.
Proof.
  induction t1 as [| ev t1 IH]; cbn; [reflexivity |].
  destruct ev; cbn; now rewrite IH.
Qed.

Lemma spinner_fail_In (t : list event) (msg : string) :
  In (SpinnerFail msg) t <-> In (SpinnerFail msg) (spinner_events t).
Proof.
  induction t as [| ev t IH]; cbn; [tauto |].
  destruct ev; cbn; rewrite IH; intuition discriminate.
Qed.

Lemma run_when_profile_rejected (h : Host) (username : string) (cause : Js.Thrown) :
  get_user h (user_url username) = Rejected cause ->
  run h username =
  ([banner h; SpinnerStart "Fetching GitHub data...";
    HttpGet (user_url username);
    SpinnerFail (if Js.isAxiosError cause && status_is (Js.response_status cause) 404
                 then not_found_message username
                 else user_failure_message)],
   Exited 1).
Proof.
  intros Hget.
  now rewrite (run_profile_rejected h username _ (fetchUserData_rejected _ _ _ Hget)).
Qed.

Lemma run_when_repos_rejected
    (h : Host) (username : string) (ru : AxiosResponse GitHubUser) (cause : Js.Thrown) :
  get_user h (user_url username) = Resolved ru ->
  get_repos h (repos_url username) = Rejected cause ->
  run h username =
  ([banner h; SpinnerStart "Fetching GitHub data...";
    HttpGet (user_url username); HttpGet (repos_url username);
    SpinnerFail repos_failure_message],
   Exited 1).
Proof.
  intros Hu Hr.
  now rewrite (run_repos_rejected h username _ _
                 (fetchUserData_resolved _ _ _ Hu) (fetchUserRepos_rejected _ _ _ Hr)).
Qed.

Lemma run_spinner_events (h : Host) (username : string) :
  spinner_events (trace (run h username)) =
  SpinnerStart "Fetching GitHub data..." ::
  match get_user h (user_url username) with
  | Rejected cause =>
      [SpinnerFail (if Js.isAxiosError cause && status_is (Js.response_status cause) 404
                    then not_found_message username
                    else user_failure_message)]
  | Resolved _ =>
      match get_repos h (repos_url username) with
      | Rejected _ => [SpinnerFail repos_failure_message]
      | Resolved _ => [SpinnerSucceed "Data fetched successfully!"]
      end
  end.
Proof.
  destruct (get_user h (user_url username)) as [ru | cause] eqn:Hu.
  - destruct (get_repos h (repos_url username)) as [rr | cause] eqn:Hr.
    + rewrite (run_fetched h username _ _ (fetchUserData_resolved _ _ _ Hu)
                 (fetchUserRepos_resolved _ _ _ Hr)), trace_pair.
      cbn [spinner_events banner]. rewrite spinner_events_app.
      destruct (console_only_views _ (displayUserInfo_console_only h (data ru)))
        as [-> _].
      destruct (console_only_views _ (displayRepoInfo_console_only (data rr)))
        as [-> _].
      reflexivity.
    + now rewrite (run_when_repos_rejected h username ru cause Hu Hr).
  - now rewrite (run_when_profile_rejected h username cause Hu).
Qed.

(** X10. In every run the spinner is started once and stopped once, with a
    success or with a failure, never both; a failure shows one of the three
    messages the fetchers build, never the message of the cause. *)
Theorem spinner_protocol (h : Host) (username : string) :
  spinner_events (trace (run h username)) =
    [SpinnerStart "Fetching GitHub data...";
     SpinnerSucceed "Data fetched successfully!"] \/
  exists msg,
    spinner_events (trace (run h username)) =
      [SpinnerStart "Fetching GitHub data..."; SpinnerFail msg] /\
    (msg = not_found_message username \/
     msg = user_failure_message \/
     msg = repos_failure_message).
Proof.
  rewrite run_spinner_events.
  destruct (get_user h (user_url username)) as [ru | cause].
  - destruct (get_repos h (repos_url username)) as [rr | cause].
    + now left.
    + right. eexists. split; [reflexivity |]. right; now right.
  - right. eexists. split; [reflexivity |].
    destruct (Js.isAxiosError cause && status_is (Js.response_status cause) 404);
      [now left | right; now left].
Qed.

(** X11. The message on the failed spinner tells what went wrong: the
    not-found message appears exactly when the profile request got a 404,
    the user-data message exactly when it was rejected otherwise, and the
    repository message exactly when the profile arrived and the repository
    request was rejected. *)
Theorem spinner_message_identifies_failure (h : Host) (username : string) :
  (In (SpinnerFail (not_found_message username)) (trace (run h username)) <->
   reports_not_found (get_user h (user_url username))) /\
  (In (SpinnerFail user_failure_message) (trace (run h username)) <->
   (exists cause, get_user h (user_url username) = Rejected cause) /\
   ~ reports_not_found (get_user h (user_url username))) /\
  (In (SpinnerFail repos_failure_message) (trace (run h username)) <->
   (exists ru, get_user h (user_url username) = Resolved ru) /\
   (exists cause, get_repos h (repos_url username) = Rejected cause)).
Proof.
  rewrite (spinner_fail_In (trace (run h username)) (not_found_message username)),
    (spinner_fail_In (trace (run h username)) user_failure_message),
    (spinner_fail_In (trace (run h username)) repos_failure_message),
    run_spinner_events.
  destruct (get_user h (user_url username)) as [ru | cause].
  - assert (Hno : ~ reports_not_found (Resolved ru)).
    { intros [e [He _]]. discriminate He. }
    destruct (get_repos h (repos_url username)) as [rr | cause].
    + split; [| split]; (split; [intros [H | [H | []]]; discriminate H |]).
      * intros H. contradiction.
      * intros [[c Hc] _]. discriminate Hc.
      * intros [_ [c Hc]]. discriminate Hc.
    + split; [| split]; split.
      * intros [H | [H | []]]; discriminate H.
      * intros H. contradiction.
      * intros [H | [H | []]]; discriminate H.
      * intros [[c Hc] _]. discriminate Hc.
      * intros _. split; eexists; reflexivity.
      * intros _. right. now left.
  - destruct (Js.isAxiosError cause && status_is (Js.response_status cause) 404) eqn:Htest.
    + apply not_found_test in Htest.
      assert (Hyes : reports_not_found (Rejected (T := GitHubUser) cause)).
      { exists cause. tauto. }
      split; [| split]; split.
      * intros _. exact Hyes.
      * intros _. right. now left.
      * intros [H | [H | []]]; discriminate H.
      * intros [_ Hno]. contradiction.
      * intros [H | [H | []]]; discriminate H.
      * intros [[ru Hru] _]. discriminate Hru.
    + assert (Hno : ~ reports_not_found (Rejected (T := GitHubUser) cause)).
      { intros [e [He Hs]]. injection He as <-.
        apply not_found_test in Hs. rewrite Htest in Hs. discriminate Hs. }
      split; [| split]; split.
      * intros [H | [H | []]]; discriminate H.
      * intros H. contradiction.
      * intros _. split; [now exists cause | exact Hno].
      * intros _. right. now left.
      * intros [H | [H | []]]; discriminate H.
      * intros [[ru Hru] _]. discriminate Hru.
Qed.

(** X12. The exit status is 0 exactly when the service resolved both
    requests, and 1 otherwise; no exception escapes the driver. *)
Theorem exit_code_by_answers (h : Host) (username : string) :
  (exit_code (run h username) = 0%Z <->
   (exists ru, get_user h (user_url username) = Resolved ru) /\
   (exists rr, get_repos h (repos_url username) = Resolved rr)) /\
  (exit_code (run h username) = 1%Z <->
   (exists cause, get_user h (user_url username) = Rejected cause) \/
   (exists cause, get_repos h (repos_url username) = Rejected cause)) /\
  (forall e, result (run h username) <> Threw e).
Proof.
  destruct (get_user h (user_url username)) as [ru | cause] eqn:Hu.
  - destruct (get_repos h (repos_url username)) as [rr | cause] eqn:Hr.
    + rewrite (run_fetched h username _ _ (fetchUserData_resolved _ _ _ Hu)
                 (fetchUserRepos_resolved _ _ _ Hr)).
      split; [| split].
      * split; [intros _; split; eexists; reflexivity | reflexivity].
      * split; [intros H; discriminate H |].
        intros [[c Hc] | [c Hc]]; discriminate Hc.
      * intros e H. discriminate H.
    + rewrite (run_when_repos_rejected h username ru cause Hu Hr).
      split; [| split].
      * split; [intros H; discriminate H |].
        intros [_ [rr Hrr]]. discriminate Hrr.
      * split; [| reflexivity]. intros _. right. now exists cause.
      * intros e H. discriminate H.
  - rewrite (run_when_profile_rejected h username cause Hu).
    split; [| split].
    + split; [intros H; discriminate H |].
      intros [[ru Hru] _]. discriminate Hru.
    + split; [| reflexivity]. intros _. left. now exists cause.
    + intros e H. discriminate H.
Qed.

(** X13. When both requests are resolved the run is, in this order: the
    banner, the spinner started, the profile request, the repository
    request, the spinner stopped with success, everything [displayUserInfo]
    prints for the profile, everything [displayRepoInfo] prints for the
    list; and it returns. *)
Theorem run_success_trace
    (h : Host) (username : string)
    (ru : AxiosResponse GitHubUser) (rr : AxiosResponse (list GitHubRepo)) :
  get_user h (user_url username) = Resolved ru ->
  get_repos h (repos_url username) = Resolved rr ->
  run h username =
  ((banner h :: SpinnerStart "Fetching GitHub data..." ::
    HttpGet (user_url username) :: HttpGet (repos_url username) ::
    SpinnerSucceed "Data fetched successfully!" ::
    trace (displayUserInfo h (data ru)) ++ trace (displayRepoInfo (data rr)))%list,
   Returned tt).
Proof.
  intros Hu Hr.
  exact (run_fetched h username _ _ (fetchUserData_resolved _ _ _ Hu)
           (fetchUserRepos_resolved _ _ _ Hr)).
Qed.

Example run_success_trace_witness :
  get_user Sample.generous_service (user_url "octocat") =
    Resolved (mkResponse Sample.octocat) /\
  get_repos Sample.generous_service (repos_url "octocat") =
    Resolved (mkResponse Sample.seven_repos) /\
  run Sample.generous_service "octocat" =
  ((banner Sample.generous_service :: SpinnerStart "Fetching GitHub data..." ::
    HttpGet (user_url "octocat") :: HttpGet (repos_url "octocat") ::
    SpinnerSucceed "Data fetched successfully!" ::
    trace (displayUserInfo Sample.generous_service Sample.octocat) ++
    trace (displayRepoInfo Sample.seven_repos))%list,
   Returned tt).
Proof.
  split; [reflexivity |]. split; [reflexivity |].
  exact (run_success_trace Sample.generous_service "octocat"
           (mkResponse Sample.octocat) (mkResponse Sample.seven_repos)
           eq_refl eq_refl).
Defined.

(** X14. A user without repositories is no failure: when the repository
    request is resolved with the empty list the run ends with status 0, the
    console shows the banner, the profile and then the notice, and no table
    is printed. *)
Theorem run_without_repositories
    (h : Host) (username : string) (ru : AxiosResponse GitHubUser) :
  get_user h (user_url username) = Resolved ru ->
  get_repos h (repos_url username) = Resolved (mkResponse []) ->
  exit_code (run h username) = 0%Z /\
  console_output (trace (run h username)) =
    (Line (Chalk yellow (figlet_textSync h "GitHub Stats")) ::
     console_output (trace (displayUserInfo h (data ru))) ++
     [Line (Chalk yellow (String "010" "No repositories found."))])%list /\
  (forall t, ~ In (TableString t) (console_output (trace (run h username)))).
Proof.
  intros Hu Hr.
  rewrite (run_fetched h username _ _ (fetchUserData_resolved _ _ _ Hu)
             (fetchUserRepos_resolved _ _ _ Hr)), trace_pair.
  cbn [data banner console_output]. rewrite console_output_app.
  split; [reflexivity |]. split; [reflexivity |].
  intros t [H | Hin]; [discriminate H |].
  apply in_app_or in Hin as [Hin | [H | []]]; [| discriminate H].
  revert Hin. rewrite displayUserInfo_trace, !console_output_app.
  unfold optional_line.
  destruct (Js.truthy (name (data ru))), (Js.truthy (bio (data ru)));
    cbn; intuition discriminate.
Qed.

Example run_without_repositories_witness :
  get_user Sample.quiet_service (user_url "newcomer") =
    Resolved (mkResponse Sample.newcomer) /\
  get_repos Sample.quiet_service (repos_url "newcomer") = Resolved (mkResponse []) /\
  exit_code (run Sample.quiet_service "newcomer") = 0%Z /\
  console_output (trace (run Sample.quiet_service "newcomer")) =
    [ Line (Chalk yellow "GitHub Stats");
      Line (Chalk bold (String "010" "User Information:"));
      Line (Chalk blue "Username: newcomer");
      Line (Chalk blue "Bio: Just arrived.");
      Line (Chalk blue "Profile URL: https://github.com/newcomer");
      Line (Chalk blue "Account Created: 2024-02-29");
      Line (Chalk bold (String "010" "Stats:"));
      Line (Chalk green "Public Repositories: 0");
      Line (Chalk green "Followers: 0");
      Line (Chalk green "Following: 0");
      Line (Chalk yellow (String "010" "No repositories found.")) ].
Proof.
  split; [reflexivity |]. split; [reflexivity |].
  destruct (run_without_repositories Sample.quiet_service "newcomer"
              (mkResponse Sample.newcomer) eq_refl eq_refl)
    as [Hexit [Hconsole _]].
  split; [exact Hexit | exact Hconsole].
Defined.
